(** * PaperMC.ts: a typed client of the PaperMC v2 HTTP API

    A shallow embedding of [src/PaperMC.ts].  The client is one class of
    static methods over a module-level axios instance.  An [async] method is
    a computation in the monad [M]: it threads the world (the axios instance
    and the trace of transport events) and either returns a value or throws.
    The HTTP transport is not part of the client; it is a parameter [net]
    of the development and every theorem holds for every transport. *)

From stdpp Require Import base strings list gmap pretty.
From Stdlib Require Import ZArith Ascii.

Local Open Scope Z_scope.

(** ** PaperMC API types (PaperMC.ts, lines 4-39) *)

Definition Project : Type := string.
Definition Version : Type := string.
(** [Build = number].  Build numbers arrive as JSON integers; they are
    modelled as [Z]. *)
Definition Build : Type := Z.
Definition Family : Type := string.

Module Channel.
Inductive t : Type := default | experimental.
End Channel.

Module Change.
Record t : Type := mk { commit : string; summary : string; message : string }.
End Change.

Module Download.
Record t : Type := mk { name : string; sha256 : string }.
End Download.

Module VersionBuild.
Record t : Type := mk {
  build : Build;
  time : string;
  channel : Channel.t;
  promoted : bool;
  changes : list Change.t;
  downloads : gmap string Download.t
}.
End VersionBuild.

Module VersionFamilyBuild.
Record t : Type := mk {
  version : Version;
  build : Build;
  time : string;
  channel : Channel.t;
  promoted : bool;
  changes : list Change.t;
  downloads : gmap string Download.t
}.
End VersionFamilyBuild.

(** ** Response types (PaperMC.ts, lines 42-92) *)

Module ProjectsResponse.
Record t : Type := mk { projects : list Project }.
End ProjectsResponse.

Module ProjectResponse.
Record t : Type := mk {
  project_id : Project;
  project_name : string;
  version_groups : list string;
  versions : list Version
}.
End ProjectResponse.

Module VersionResponse.
Record t : Type := mk {
  project_id : Project;
  project_name : string;
  version : Version;
  builds : list Build
}.
End VersionResponse.

Module BuildsResponse.
Record t : Type := mk {
  project_id : Project;
  project_name : string;
  version : Version;
  builds : list VersionBuild.t
}.
End BuildsResponse.

Module BuildResponse.
Record t : Type := mk {
  project_id : Project;
  project_name : string;
  version : Version;
  build : Build;
  time : string;
  channel : Channel.t;
  promoted : bool;
  changes : list Change.t;
  downloads : gmap string Download.t
}.
End BuildResponse.

Module VersionFamilyResponse.
Record t : Type := mk {
  project_id : Project;
  project_name : string;
  version_group : Family;
  versions : list Version
}.
End VersionFamilyResponse.

Module VersionFamilyBuildsResponse.
Record t : Type := mk {
  project_id : Project;
  project_name : string;
  version_group : Family;
  versions : list Version;
  builds : list VersionFamilyBuild.t
}.
End VersionFamilyBuildsResponse.

(** ** The JavaScript the client relies on *)

(** The type arguments the client passes to [get<T>]: one per response
    interface.  TypeScript does not check the body against [T]; the typed
    model takes the body at the declared type. *)
Inductive Shape : Type :=
  | TProjects | TProject | TVersion | TBuilds | TBuild
  | TVersionFamily | TVersionFamilyBuilds.

Definition data_of (T : Shape) : Type :=
  match T with
  | TProjects => ProjectsResponse.t
  | TProject => ProjectResponse.t
  | TVersion => VersionResponse.t
  | TBuilds => BuildsResponse.t
  | TBuild => BuildResponse.t
  | TVersionFamily => VersionFamilyResponse.t
  | TVersionFamilyBuilds => VersionFamilyBuildsResponse.t
  end.

(** A slot of a template literal converts its value with ToString: a string
    is itself, an integer number prints in decimal (as JavaScript prints
    an integer of absolute value below 10^21), [undefined] prints as the
    word.  [option A] is "[A] or [undefined]", the run-time type of an
    indexed array element. *)
Class ToString (A : Type) : Type := to_string : A → string.

#[global] Instance string_to_string : ToString string := λ s, s.
#[global] Instance number_to_string : ToString Z := λ n, pretty n.
#[global] Instance undefined_to_string `{ToString A} : ToString (option A) :=
  λ o, match o with Some a => to_string a | None => "undefined" end.

(** [xs[i]]: the element at an index inside the array, [undefined] at any
    other index (index -1 of the empty array included). *)
Definition index {A : Type} (xs : list A) (i : Z) : option A :=
  if decide (0 ≤ i) then xs !! Z.to_nat i else None.

(** [xs.length] *)
Definition length_of {A : Type} (xs : list A) : Z := Z.of_nat (length xs).

(** ** axios, as far as the client uses it *)

Inductive AxiosError : Type :=
  | NetworkError (msg : string)
  | BadStatus (status : Z)
  | BadBody (msg : string).

Record AxiosResponse (T : Type) : Type := mkResponse {
  data : T;
  status : Z;
  statusText : string
}.
Arguments mkResponse {T} _ _ _.
Arguments data {T} _.
Arguments status {T} _.
Arguments statusText {T} _.

Record AxiosInstance : Type := mkInstance { baseURL : string }.

Inductive Method : Type := GET.

Record Request : Type := mkRequest {
  method : Method;
  base : string;
  url : string
}.

(** What the transport did, oldest first: a request went out, a request
    settled (with the failure, if it failed). *)
Inductive Event : Type :=
  | Issued (r : Request)
  | Settled (r : Request) (failure : option AxiosError).

(** The transport answers a request, given what happened before, with a
    failure or a response whose body has the type the caller asked for. *)
Definition Transport : Type :=
  ∀ T : Shape, list Event → Request → AxiosError + AxiosResponse (data_of T).

(** What an operation can throw: the transport's failure, as the transport
    raised it, or the TypeError of reading a property of [undefined]. *)
Inductive Error : Type :=
  | Rejected (e : AxiosError)
  | TypeError (msg : string).

Record World : Type := mkWorld {
  api : AxiosInstance;
  trace : list Event
}.

Definition M (A : Type) : Type := World → (Error + A) * World.

#[global] Instance M_ret : MRet M := λ A a w, (inr a, w).

#[global] Instance M_bind : MBind M := λ A B f m w,
  match m w with
  | (inl e, w') => (inl e, w')
  | (inr a, w') => f a w'
  end.

Definition throw {A : Type} (e : Error) : M A := λ w, (inl e, w).

(** [o.f] where [o] may be [undefined] *)
Definition prop {A B : Type} (f : A → B) (name : string) (o : option A) : M B :=
  match o with
  | Some a => mret (f a)
  | None =>
      throw (TypeError ("Cannot read properties of undefined (reading '" +:+ name +:+ "')"))
  end.

(** [axios.create({ baseURL })] *)
Definition axios_create (baseURL : string) : AxiosInstance := mkInstance baseURL.

(** PaperMC.ts, lines 94-96 *)
Definition paperAPIInstance : AxiosInstance :=
  axios_create "https://api.papermc.io/v2".

(** The world when the module has been loaded and nothing has been called. *)
Definition loaded : World := mkWorld paperAPIInstance [].

(** Modelled from the spec: axios's [getUri()], called with no argument on
    an instance that has a base address and no url or parameters, is the
    base address ("{baseURL}/projects/..." in the spec's template). *)
Definition getUri : M string := λ w, (inr (baseURL (api w)), w).

Section Client.

Variable net : Transport.

(** [await paperAPIInstance.get<T>(url)]: the request goes out, the caller
    is suspended until it settles, and resumes with the response or with
    the transport's failure thrown. *)
Definition get (T : Shape) (url : string) : M (AxiosResponse (data_of T)) := λ w,
  let r := mkRequest GET (baseURL (api w)) url in
  match net T (trace w) r with
  | inl e => (inl (Rejected e), mkWorld (api w) (trace w ++ [Issued r; Settled r (Some e)]))
  | inr resp => (inr resp, mkWorld (api w) (trace w ++ [Issued r; Settled r None]))
  end.

(** ** class PaperMC (PaperMC.ts, lines 98-204) *)

Definition getProjects : M ProjectsResponse.t :=
  r ← get TProjects "/projects";
  mret (data r).

Definition getProject (project : Project) : M ProjectResponse.t :=
  r ← get TProject ("/projects/" +:+ to_string project);
  mret (data r).

Definition getVersion (project : Project) (version : Version) : M VersionResponse.t :=
  r ← get TVersion ("/projects/" +:+ to_string project +:+ "/versions/" +:+ to_string version);
  mret (data r).

(** [version] is typed [Version]; [getLatestVersionDownloadURL] passes an
    indexed element, so the value can be [undefined] at run time. *)
Definition getBuilds (project : Project) (version : option Version) : M BuildsResponse.t :=
  r ← get TBuilds ("/projects/" +:+ to_string project +:+ "/versions/" +:+ to_string version
                   +:+ "/builds");
  mret (data r).

Definition getBuild (project : Project) (version : Version) (build : Build) : M BuildResponse.t :=
  r ← get TBuild ("/projects/" +:+ to_string project +:+ "/versions/" +:+ to_string version
                  +:+ "/builds/" +:+ to_string build);
  mret (data r).

Definition getDownloadURL (project : Project) (version : option Version) (build : Build) : M string :=
  uri ← getUri;
  mret (to_string uri +:+ "/projects/" +:+ to_string project +:+ "/versions/"
        +:+ to_string version +:+ "/builds/" +:+ to_string build +:+ "/downloads/"
        +:+ to_string project +:+ "-" +:+ to_string version +:+ "-" +:+ to_string build
        +:+ ".jar").

Definition getVersionFamily (project : Project) (family : Family) : M VersionFamilyResponse.t :=
  r ← get TVersionFamily ("/projects/" +:+ to_string project +:+ "/version_group/"
                          +:+ to_string family);
  mret (data r).

Definition getVersionFamilyBuilds (project : Project) (family : Family)
  : M VersionFamilyBuildsResponse.t :=
  r ← get TVersionFamilyBuilds ("/projects/" +:+ to_string project +:+ "/version_group/"
                                +:+ to_string family +:+ "/builds");
  mret (data r).

Definition getLatestVersionDownloadURL (project : Project) : M string :=
  p ← getProject project;
  let versions := ProjectResponse.versions p in
  b ← getBuilds project (index versions (length_of versions - 1));
  let builds := BuildsResponse.builds b in
  build ← prop VersionBuild.build "build" (index builds (length_of builds - 1));
  getDownloadURL project (index versions (length_of versions - 1)) build.

(** ** The query operations, as one family

    The seven methods that fetch, with their inputs; [perform] calls the
    method.  [endpoint] is the path the documentation gives for it. *)

Inductive Query : Type :=
  | QProjects
  | QProject (project : Project)
  | QVersion (project : Project) (version : Version)
  | QBuilds (project : Project) (version : Version)
  | QBuild (project : Project) (version : Version) (build : Build)
  | QVersionFamily (project : Project) (family : Family)
  | QVersionFamilyBuilds (project : Project) (family : Family).

Definition returns (q : Query) : Shape :=
  match q with
  | QProjects => TProjects
  | QProject _ => TProject
  | QVersion _ _ => TVersion
  | QBuilds _ _ => TBuilds
  | QBuild _ _ _ => TBuild
  | QVersionFamily _ _ => TVersionFamily
  | QVersionFamilyBuilds _ _ => TVersionFamilyBuilds
  end.

Definition perform (q : Query) : M (data_of (returns q)) :=
  match q with
  | QProjects => getProjects
  | QProject p => getProject p
  | QVersion p v => getVersion p v
  | QBuilds p v => getBuilds p (Some v)
  | QBuild p v b => getBuild p v b
  | QVersionFamily p f => getVersionFamily p f
  | QVersionFamilyBuilds p f => getVersionFamilyBuilds p f
  end.

(** Any call of the client: a query or one of the two URL helpers. *)
Inductive Call : Type :=
  | CQuery (q : Query)
  | CDownloadURL (project : Project) (version : Version) (build : Build)
  | CLatest (project : Project).

(** The world a call leaves behind, whether it returned or threw. *)
Definition after (c : Call) (w : World) : World :=
  match c with
  | CQuery q => (perform q w).2
  | CDownloadURL p v b => (getDownloadURL p (Some v) b w).2
  | CLatest p => (getLatestVersionDownloadURL p w).2
  end.

Definition after_all (cs : list Call) (w : World) : World :=
  foldl (λ w c, after c w) w cs.

End Client.

(** The endpoint table of the documentation (section 6 of the spec), with
    the inputs in their places.  The build number is put in decimal. *)
Definition endpoint (q : Query) : string :=
  match q with
  | QProjects => "/projects"
  | QProject p => "/projects/" +:+ p
  | QVersion p v => "/projects/" +:+ p +:+ "/versions/" +:+ v
  | QBuilds p v => "/projects/" +:+ p +:+ "/versions/" +:+ v +:+ "/builds"
  | QBuild p v b =>
      "/projects/" +:+ p +:+ "/versions/" +:+ v +:+ "/builds/" +:+ pretty b
  | QVersionFamily p f => "/projects/" +:+ p +:+ "/version_group/" +:+ f
  | QVersionFamilyBuilds p f =>
      "/projects/" +:+ p +:+ "/version_group/" +:+ f +:+ "/builds"
  end.

(** The download template of the documentation:
    {baseURL}/projects/{project}/versions/{version}/builds/{build}/downloads/{project}-{version}-{build}.jar
    over the three identifiers as text. *)
Definition download_template (baseURL project version build : string) : string :=
  baseURL +:+ "/projects/" +:+ project +:+ "/versions/" +:+ version +:+ "/builds/"
  +:+ build +:+ "/downloads/" +:+ project +:+ "-" +:+ version +:+ "-" +:+ build +:+ ".jar".

(** The request the client sends for a path in a given world. *)
Definition request_in (w : World) (path : string) : Request :=
  mkRequest GET (baseURL (api w)) path.

(** The requests of a trace, in the order they went out. *)
Definition requests (tr : list Event) : list Request :=
  omap (λ ev, match ev with Issued r => Some r | Settled _ _ => None end) tr.

(** The path [getBuilds] asks for; the version slot prints [undefined] as
    the word. *)
Definition builds_path (p : Project) (v : option Version) : string :=
  "/projects/" +:+ p +:+ "/versions/" +:+ to_string v +:+ "/builds".

(** A computation that leaves the axios instance as it found it. *)
Definition keeps_api {A : Type} (m : M A) : Prop := ∀ w, api (m w).2 = api w.

(** ** Transports to run the client against *)

(** Nothing is reachable. *)
Definition down : Transport := λ T _ _, inl (NetworkError "ECONNREFUSED").

Definition ok {T : Type} (body : T) : AxiosResponse T := mkResponse body 200 "OK".

Definition a_build (n : Build) : VersionBuild.t :=
  VersionBuild.mk n "2023-06-12T00:00:00.000Z" Channel.default false []
    {[ "application" := Download.mk ("paper-" +:+ pretty n +:+ ".jar") "" ]}.

(** A server that knows one project with the given versions, and the given
    builds for its last version.  As the client does, it names the last
    version by what the template slot prints.  Every other request is
    answered 404. *)
Definition serving (project : Project) (versions : list Version)
    (builds : list VersionBuild.t) : Transport := λ T _ r,
  let v := to_string (last versions) in
  match T return AxiosError + AxiosResponse (data_of T) with
  | TProject =>
      if decide (url r = "/projects/" +:+ project)
      then inr (ok (ProjectResponse.mk project "Paper" [] versions))
      else inl (BadStatus 404)
  | TBuilds =>
      if decide (url r = "/projects/" +:+ project +:+ "/versions/" +:+ v +:+ "/builds")
      then inr (ok (BuildsResponse.mk project "Paper" v builds))
      else inl (BadStatus 404)
  | _ => inl (BadStatus 404)
  end.

(** A server that answers the project list the first time and 500 ever
    after. *)
Definition failing_later : Transport := λ T tr _,
  match T return AxiosError + AxiosResponse (data_of T) with
  | TProjects =>
      match tr with
      | [] => inr (ok (ProjectsResponse.mk ["paper"; "velocity"]))
      | _ => inl (BadStatus 500)
      end
  | _ => inl (BadStatus 500)
  end.

(** The scenario of the documentation: versions 1.19 and 1.20, builds 10
    and 17 of the latter. *)
Definition paper_server : Transport :=
  serving "paper" ["1.19"; "1.20"] [a_build 10; a_build 17].

Definition paper_project : ProjectResponse.t :=
  ProjectResponse.mk "paper" "Paper" [] ["1.19"; "1.20"].

Definition paper_builds : BuildsResponse.t :=
  BuildsResponse.mk "paper" "Paper" "1.20" [a_build 10; a_build 17].

(** The same project with no version at all, and with no build. *)
Definition no_versions_server : Transport :=
  serving "paper" [] [a_build 10; a_build 17].

Definition no_builds_server : Transport :=
  serving "paper" ["1.19"; "1.20"] [].

(** The worlds of the scenario: after the project request, and after the
    builds request for a version slot that prints [v]. *)
Definition project_fetched : World :=
  mkWorld paperAPIInstance
    [Issued (mkRequest GET "https://api.papermc.io/v2" "/projects/paper");
     Settled (mkRequest GET "https://api.papermc.io/v2" "/projects/paper") None].

Definition builds_fetched (v : string) : World :=
  mkWorld paperAPIInstance
    (trace project_fetched ++
     [Issued (mkRequest GET "https://api.papermc.io/v2"
                ("/projects/paper/versions/" +:+ v +:+ "/builds"));
      Settled (mkRequest GET "https://api.papermc.io/v2"
                 ("/projects/paper/versions/" +:+ v +:+ "/builds")) None]).

(** The world after one successful request of the project list. *)
Definition projects_fetched : World :=
  mkWorld paperAPIInstance
    [Issued (mkRequest GET "https://api.papermc.io/v2" "/projects");
     Settled (mkRequest GET "https://api.papermc.io/v2" "/projects") None].

(** ** Identifiers without a slash *)

(** The text has no "/" in it. *)
Fixpoint slash_free (s : string) : bool :=
  match s with
  | EmptyString => true
  | String c s' => if Ascii.eqb c "/"%char then false else slash_free s'
  end.

(** The text is at a segment boundary: it is over, or a "/" comes next. *)
Definition at_boundary (t : string) : bool :=
  match t with
  | EmptyString => true
  | String c _ => Ascii.eqb c "/"%char
  end.

(** The text inputs of a query have no slash. *)
Definition clean (q : Query) : bool :=
  match q with
  | QProjects => true
  | QProject p => slash_free p
  | QVersion p v => slash_free p && slash_free v
  | QBuilds p v => slash_free p && slash_free v
  | QBuild p v _ => slash_free p && slash_free v
  | QVersionFamily p f => slash_free p && slash_free f
  | QVersionFamilyBuilds p f => slash_free p && slash_free f
  end.

(** A server that knows the project and its versions and has no build
    list to give. *)
Definition builds_missing : Transport := λ T _ r,
  match T return AxiosError + AxiosResponse (data_of T) with
  | TProject => inr (ok paper_project)
  | _ => inl (BadStatus 404)
  end.

(** ** Running the monad *)

Section Laws.

Variable net : Transport.

Lemma append_assoc (s t u : string) : (s +:+ t) +:+ u = s +:+ t +:+ u.
Proof.
  induction s as [|c s IH]; [reflexivity|].
  change (String c ((s +:+ t) +:+ u) = String c (s +:+ t +:+ u)).
  rewrite IH. reflexivity.
Qed.

Lemma bind_run {A B : Type} (m : M A) (f : A → M B) (w : World) :
  (m ≫= f) w = match m w with
               | (inl e, w') => (inl e, w')
               | (inr a, w') => f a w'
               end.
Proof. reflexivity. Qed.

Lemma bind_throws {A B : Type} (m : M A) (f : A → M B) (w w' : World) (e : Error) :
  m w = (inl e, w') → (m ≫= f) w = (inl e, w').
Proof. intros Hm. rewrite bind_run, Hm. reflexivity. Qed.

Lemma bind_returns {A B : Type} (m : M A) (f : A → M B) (w w' : World) (a : A) :
  m w = (inr a, w') → (m ≫= f) w = f a w'.
Proof. intros Hm. rewrite bind_run, Hm. reflexivity. Qed.

(** The last index is the last element, and [undefined] when there is
    none. *)
Lemma index_last {A : Type} (xs : list A) : index xs (length_of xs - 1) = last xs.
Proof.
  unfold index, length_of.
  destruct xs as [|x xs]; [reflexivity|].
  rewrite decide_True by (cbn [length]; lia).
  rewrite last_lookup. f_equal. cbn [length]. lia.
Qed.

Lemma get_rejected (T : Shape) (path : string) (w : World) (e : AxiosError) :
  net T (trace w) (request_in w path) = inl e →
  get net T path w =
    (inl (Rejected e),
     mkWorld (api w)
       (trace w ++ [Issued (request_in w path); Settled (request_in w path) (Some e)])).
Proof. intros Hnet. unfold get. fold (request_in w path). rewrite Hnet. reflexivity. Qed.

Lemma get_fulfilled (T : Shape) (path : string) (w : World)
    (r : AxiosResponse (data_of T)) :
  net T (trace w) (request_in w path) = inr r →
  get net T path w =
    (inr r,
     mkWorld (api w)
       (trace w ++ [Issued (request_in w path); Settled (request_in w path) None])).
Proof. intros Hnet. unfold get. fold (request_in w path). rewrite Hnet. reflexivity. Qed.

(** Whatever the transport answers, [get] adds one request and its
    settlement to the trace and leaves the instance alone. *)
Lemma get_world (T : Shape) (path : string) (w : World) :
  ∃ o, (get net T path w).2 =
       mkWorld (api w)
         (trace w ++ [Issued (request_in w path); Settled (request_in w path) o]).
Proof.
  destruct (net T (trace w) (request_in w path)) as [e|r] eqn:Hnet.
  - exists (Some e). rewrite (get_rejected _ _ _ _ Hnet). reflexivity.
  - exists None. rewrite (get_fulfilled _ _ _ _ Hnet). reflexivity.
Qed.

(** Each query is one [get] of its endpoint, and hands back the body. *)
Lemma perform_get (q : Query) :
  perform net q = (get net (returns q) (endpoint q) ≫= λ r, mret (data r)).
Proof. destruct q; reflexivity. Qed.

Lemma perform_world (q : Query) (w : World) :
  (perform net q w).2 = (get net (returns q) (endpoint q) w).2.
Proof.
  rewrite perform_get, bind_run.
  destruct (get net (returns q) (endpoint q) w) as [[e|r] w']; reflexivity.
Qed.

Lemma perform_rejected (q : Query) (w : World) (e : AxiosError) :
  net (returns q) (trace w) (request_in w (endpoint q)) = inl e →
  perform net q w =
    (inl (Rejected e),
     mkWorld (api w)
       (trace w ++ [Issued (request_in w (endpoint q));
                    Settled (request_in w (endpoint q)) (Some e)])).
Proof. intros Hnet. rewrite perform_get. apply bind_throws, get_rejected, Hnet. Qed.

Lemma perform_fulfilled (q : Query) (w : World)
    (r : AxiosResponse (data_of (returns q))) :
  net (returns q) (trace w) (request_in w (endpoint q)) = inr r →
  perform net q w =
    (inr (data r),
     mkWorld (api w)
       (trace w ++ [Issued (request_in w (endpoint q));
                    Settled (request_in w (endpoint q)) None])).
Proof.
  intros Hnet. rewrite perform_get.
  erewrite bind_returns by (apply get_fulfilled, Hnet). reflexivity.
Qed.

(** [getBuilds] with the version as it arrives, [undefined] included. *)
Lemma getBuilds_world (p : Project) (v : option Version) (w : World) :
  ∃ o, (getBuilds net p v w).2 =
       mkWorld (api w)
         (trace w ++ [Issued (request_in w (builds_path p v));
                      Settled (request_in w (builds_path p v)) o]).
Proof.
  change (getBuilds net p v)
    with (get net TBuilds (builds_path p v) ≫= λ r, mret (data r)).
  rewrite bind_run.
  destruct (get_world TBuilds (builds_path p v) w) as [o Hw]. exists o.
  destruct (get net TBuilds (builds_path p v) w) as [[e|r] w']; exact Hw.
Qed.

(** The template literal of [getDownloadURL], slot by slot. *)
Lemma getDownloadURL_run (p : Project) (v : option Version) (b : Build) (w : World) :
  getDownloadURL p v b w =
    (inr (download_template (baseURL (api w)) p (to_string v) (pretty b)), w).
Proof. reflexivity. Qed.

(** Reading [.build] and building the URL send nothing. *)
Lemma prop_then_url_world {A : Type} (f : A → Build) (name : string) (o : option A)
    (p : Project) (v : option Version) (w : World) :
  ((prop f name o ≫= λ n, getDownloadURL p v n) w).2 = w.
Proof. destruct o; reflexivity. Qed.

Lemma requests_app (tr1 tr2 : list Event) :
  requests (tr1 ++ tr2) = requests tr1 ++ requests tr2.
Proof. unfold requests. apply omap_app. Qed.

(** *** No operation writes the axios instance *)

Lemma keeps_api_ret {A : Type} (a : A) : keeps_api (mret a).
Proof. intros w. reflexivity. Qed.

Lemma keeps_api_throw {A : Type} (e : Error) : keeps_api (@throw A e).
Proof. intros w. reflexivity. Qed.

Lemma keeps_api_bind {A B : Type} (m : M A) (f : A → M B) :
  keeps_api m → (∀ a, keeps_api (f a)) → keeps_api (m ≫= f).
Proof.
  intros Hm Hf w. rewrite bind_run. specialize (Hm w).
  destruct (m w) as [[e|a] w']; cbn [snd] in *; [exact Hm|].
  rewrite Hf. exact Hm.
Qed.

Lemma keeps_api_prop {A B : Type} (f : A → B) (name : string) (o : option A) :
  keeps_api (prop f name o).
Proof. destruct o; [apply keeps_api_ret | apply keeps_api_throw]. Qed.

Lemma keeps_api_get (T : Shape) (path : string) : keeps_api (get net T path).
Proof. intros w. destruct (get_world T path w) as [o ->]. reflexivity. Qed.

Lemma keeps_api_perform (q : Query) : keeps_api (perform net q).
Proof.
  rewrite perform_get. apply keeps_api_bind; [apply keeps_api_get|].
  intros r. apply keeps_api_ret.
Qed.

Lemma keeps_api_getDownloadURL (p : Project) (v : option Version) (b : Build) :
  keeps_api (getDownloadURL p v b).
Proof. intros w. reflexivity. Qed.

Lemma keeps_api_getLatestVersionDownloadURL (p : Project) :
  keeps_api (getLatestVersionDownloadURL net p).
Proof.
  unfold getLatestVersionDownloadURL.
  apply keeps_api_bind; [apply (keeps_api_perform (QProject p))|]. intros pr.
  apply keeps_api_bind.
  { unfold getBuilds. apply keeps_api_bind; [apply keeps_api_get|].
    intros r. apply keeps_api_ret. }
  intros br. apply keeps_api_bind; [apply keeps_api_prop|].
  intros b. apply keeps_api_getDownloadURL.
Qed.

Lemma after_api (c : Call) (w : World) : api (after net c w) = api w.
Proof.
  destruct c as [q|p v b|p]; cbn [after].
  - apply keeps_api_perform.
  - apply keeps_api_getDownloadURL.
  - apply keeps_api_getLatestVersionDownloadURL.
Qed.

Lemma after_all_api (cs : list Call) (w : World) : api (after_all net cs w) = api w.
Proof.
  revert w. induction cs as [|c cs IH]; intros w; [reflexivity|].
  cbn. unfold after_all in IH. rewrite IH. apply after_api.
Qed.

End Laws.

(** ** The properties of the client *)

Section Properties.

Variable net : Transport.

(** C2. For every project, version and build, [getDownloadURL] returns the
    documented template with the three identifiers put in as they are (the
    build number in decimal) after the instance's base address, and leaves
    the world, the trace of transport events included, untouched: it makes
    no request. *)
Theorem getDownloadURL_is_the_template (project : Project) (version : Version)
    (build : Build) (w : World) :
  getDownloadURL project (Some version) build w =
    (inr (download_template (baseURL (api w)) project version (pretty build)), w).
Proof. reflexivity. Qed.

(** C7. [getDownloadURL] returns a string on every input: an empty
    project or version, a version that is [undefined], any build number. It
    has no path that throws. *)
Theorem getDownloadURL_never_fails (project : Project) (version : option Version)
    (build : Build) (w : World) :
  ∃ url : string, getDownloadURL project version build w = (inr url, w).
Proof. eexists. reflexivity. Qed.

(** C4. Every query operation sends exactly one request: the trace grows
    by one GET of the documented endpoint, with the inputs in their places,
    and by the settlement of that request. *)
Theorem query_issues_one_get (q : Query) (w : World) :
  ∃ o : option AxiosError,
    trace (perform net q w).2 =
      trace w ++ [Issued (mkRequest GET (baseURL (api w)) (endpoint q));
                  Settled (mkRequest GET (baseURL (api w)) (endpoint q)) o].
Proof.
  rewrite perform_world.
  destruct (get_world net (returns q) (endpoint q) w) as [o ->].
  exists o. reflexivity.
Qed.

(** C5. When the transport fails the request of a query operation, the
    operation throws that very failure, after that one request: nothing is
    retried, nothing is returned.  The world is any world, so this also
    holds right after the same call has succeeded: no earlier answer is
    served again. *)
Theorem transport_failure_propagates (q : Query) (w : World) (e : AxiosError) :
  net (returns q) (trace w) (request_in w (endpoint q)) = inl e →
  perform net q w =
    (inl (Rejected e),
     mkWorld (api w)
       (trace w ++ [Issued (request_in w (endpoint q));
                    Settled (request_in w (endpoint q)) (Some e)])).
Proof.
  apply perform_rejected.
Qed.

(** C6. When the transport answers the request of a query operation with
    a response, the operation returns the body of that response as it is. *)
Theorem response_body_is_returned (q : Query) (w : World)
    (r : AxiosResponse (data_of (returns q))) :
  net (returns q) (trace w) (request_in w (endpoint q)) = inr r →
  (perform net q w).1 = inr (data r).
Proof. intros Hnet. rewrite (perform_fulfilled net q w r Hnet). reflexivity. Qed.

(** C1. When [getProject] returns a response whose versions end in
    [lastVersion], and [getBuilds] for that version returns a response
    whose builds end in a record with build number [lastBuild], then
    [getLatestVersionDownloadURL] returns the very string that
    [getDownloadURL] returns for the project, [lastVersion] and
    [lastBuild]. *)
Theorem latest_is_download_of_last (project : Project) (w w1 w2 : World)
    (p : ProjectResponse.t) (b : BuildsResponse.t)
    (lastVersion : Version) (vb : VersionBuild.t) (lastBuild : Build) :
  getProject net project w = (inr p, w1) →
  last (ProjectResponse.versions p) = Some lastVersion →
  getBuilds net project (Some lastVersion) w1 = (inr b, w2) →
  last (BuildsResponse.builds b) = Some vb →
  VersionBuild.build vb = lastBuild →
  ∃ url : string,
    getDownloadURL project (Some lastVersion) lastBuild w2 = (inr url, w2)
    ∧ getLatestVersionDownloadURL net project w = (inr url, w2).
Proof.
  intros Hp Hv Hb Hvb Hn. eexists. split; [reflexivity|].
  unfold getLatestVersionDownloadURL.
  rewrite (bind_returns _ _ _ _ _ Hp). cbn zeta.
  rewrite index_last, Hv.
  rewrite (bind_returns _ _ _ _ _ Hb). cbn zeta.
  rewrite index_last, Hvb. cbn [prop].
  rewrite bind_run. cbn. rewrite Hn. reflexivity.
Qed.

(** C3, as the code has it.  Once [getProject] has returned:
    when the build list fetched for the resolved last version is empty,
    [getLatestVersionDownloadURL] throws a TypeError; when the version list
    is empty, the resolved version is [undefined], the builds of the path
    with the word "undefined" in the version slot are fetched, and if that
    list has a last build the call returns a URL with "undefined" in the
    version slots. *)
Theorem latest_on_empty_lists (project : Project) (w w1 : World)
    (p : ProjectResponse.t) :
  getProject net project w = (inr p, w1) →
  (∀ (b : BuildsResponse.t) (w2 : World),
     getBuilds net project (last (ProjectResponse.versions p)) w1 = (inr b, w2) →
     BuildsResponse.builds b = [] →
     getLatestVersionDownloadURL net project w =
       (inl (TypeError "Cannot read properties of undefined (reading 'build')"), w2))
  ∧ (ProjectResponse.versions p = [] →
     ∀ (b : BuildsResponse.t) (w2 : World) (vb : VersionBuild.t),
       getBuilds net project None w1 = (inr b, w2) →
       last (BuildsResponse.builds b) = Some vb →
       getLatestVersionDownloadURL net project w =
         (inr (download_template (baseURL (api w2)) project "undefined"
                 (pretty (VersionBuild.build vb))), w2)).
Proof.
  intros Hp. split.
  - intros b w2 Hb Hnil. unfold getLatestVersionDownloadURL.
    rewrite (bind_returns _ _ _ _ _ Hp). cbn zeta.
    rewrite index_last, (bind_returns _ _ _ _ _ Hb). cbn zeta.
    rewrite Hnil. reflexivity.
  - intros Hnil b w2 vb Hb Hvb. unfold getLatestVersionDownloadURL.
    rewrite (bind_returns _ _ _ _ _ Hp). cbn zeta.
    rewrite Hnil. change (index [] (length_of [] - 1)) with (@None Version).
    rewrite (bind_returns _ _ _ _ _ Hb). cbn zeta.
    rewrite index_last, Hvb. reflexivity.
Qed.

(** C8. [getLatestVersionDownloadURL] first sends the request of
    [getProject] and waits for it to settle.  If it failed, the call throws
    and no other request goes out.  If it succeeded, the request of
    [getBuilds] goes out next, for the last version of the response just
    received, and nothing else is sent. *)
Theorem latest_awaits_project_then_builds (project : Project) (w : World) :
  let q1 := request_in w ("/projects/" +:+ project) in
  match getProject net project w with
  | (inl e, w1) =>
      getLatestVersionDownloadURL net project w = (inl e, w1)
      ∧ ∃ e1, trace w1 = trace w ++ [Issued q1; Settled q1 (Some e1)]
  | (inr p, w1) =>
      let q2 := request_in w
                  (builds_path project (last (ProjectResponse.versions p))) in
      trace w1 = trace w ++ [Issued q1; Settled q1 None]
      ∧ ∃ o, trace (getLatestVersionDownloadURL net project w).2 =
             trace w ++ [Issued q1; Settled q1 None; Issued q2; Settled q2 o]
  end.
Proof.
  intros q1.
  destruct (net TProject (trace w) (request_in w (endpoint (QProject project))))
    as [e|r] eqn:Hnet.
  - pose proof (perform_rejected net (QProject project) w e Hnet) as Hp.
    cbn [perform] in Hp. rewrite Hp. split.
    + unfold getLatestVersionDownloadURL. apply bind_throws, Hp.
    + exists e. reflexivity.
  - pose proof (perform_fulfilled net (QProject project) w r Hnet) as Hp.
    cbn [perform] in Hp. rewrite Hp. cbn zeta. split; [reflexivity|].
    unfold getLatestVersionDownloadURL.
    rewrite (bind_returns _ _ _ _ _ Hp). cbn zeta. rewrite index_last.
    set (w1 := mkWorld _ _). set (v := last _).
    destruct (getBuilds_world net project v w1) as [o Hw2]. exists o.
    rewrite bind_run.
    destruct (getBuilds net project v w1) as [[e|b] w2]; cbn [snd] in *; subst w2.
    + cbn [snd trace]. subst w1. cbn [trace api]. rewrite <- app_assoc. reflexivity.
    + rewrite prop_then_url_world. cbn [trace]. subst w1. cbn [trace api].
      rewrite <- app_assoc. reflexivity.
Qed.

(** C9. [getDownloadURL] reads nothing but the instance's base address,
    and no call of the client writes the instance: after any sequence of
    calls the instance is the one before them, and [getDownloadURL] returns
    for the same inputs the same string. *)
Theorem getDownloadURL_is_deterministic (cs : list Call) (project : Project)
    (version : option Version) (build : Build) (w : World) :
  api (after_all net cs w) = api w
  ∧ (getDownloadURL project version build (after_all net cs w)).1
    = (getDownloadURL project version build w).1.
Proof.
  pose proof (after_all_api net cs w) as Hapi. split; [exact Hapi|].
  unfold getDownloadURL, getUri. rewrite !bind_run. cbn. rewrite Hapi. reflexivity.
Qed.

(** C10. Identifiers go into paths and URLs as they are, with no
    escaping and no check.  The path a query asks for is the plain
    concatenation of the endpoint's literals and its inputs, so an input
    with a slash in it moves the request to another endpoint: a project id
    that ends in "/versions/v" makes [getProject] send the request of
    [getVersion]; a version that ends in "/builds" makes [getVersion] send
    the request of [getBuilds], and one that ends in "/builds/n" that of
    [getBuild]; a project id that ends in "/version_group/f" makes
    [getProject] send the request of [getVersionFamily]; a family that ends
    in "/builds" makes [getVersionFamily] send the request of
    [getVersionFamilyBuilds]; and a project id with a slash in it appears
    with that slash in the download URL. *)
Theorem identifiers_are_not_escaped (project : Project) (version : Version)
    (family : Family) (build : Build) (w : World) :
  (∀ q : Query, requests (trace (perform net q w).2)
                = requests (trace w) ++ [request_in w (endpoint q)])
  ∧ requests (trace (getProject net (project +:+ "/versions/" +:+ version) w).2)
    = requests (trace (getVersion net project version w).2)
  ∧ requests (trace (getVersion net project (version +:+ "/builds") w).2)
    = requests (trace (getBuilds net project (Some version) w).2)
  ∧ requests (trace (getVersion net project
                       (version +:+ "/builds/" +:+ pretty build) w).2)
    = requests (trace (getBuild net project version build w).2)
  ∧ requests (trace (getProject net (project +:+ "/version_group/" +:+ family) w).2)
    = requests (trace (getVersionFamily net project family w).2)
  ∧ requests (trace (getVersionFamily net project (family +:+ "/builds") w).2)
    = requests (trace (getVersionFamilyBuilds net project family w).2)
  ∧ (getDownloadURL (project +:+ "/" +:+ family) (Some version) build w).1
    = inr (baseURL (api w) +:+ "/projects/" +:+ project +:+ "/" +:+ family
           +:+ "/versions/" +:+ version +:+ "/builds/" +:+ pretty build
           +:+ "/downloads/" +:+ project +:+ "/" +:+ family +:+ "-" +:+ version
           +:+ "-" +:+ pretty build +:+ ".jar").
Proof.
  assert (Hreq : ∀ q, requests (trace (perform net q w).2)
                      = requests (trace w) ++ [request_in w (endpoint q)]).
  { intros q. rewrite perform_world.
    destruct (get_world net (returns q) (endpoint q) w) as [o ->].
    cbn [trace]. rewrite requests_app. reflexivity. }
  split; [exact Hreq|]. repeat split.
  - exact (eq_trans (Hreq (QProject (project +:+ "/versions/" +:+ version)))
             (eq_sym (Hreq (QVersion project version)))).
  - exact (eq_trans (Hreq (QVersion project (version +:+ "/builds")))
             (eq_sym (Hreq (QBuilds project version)))).
  - exact (eq_trans (Hreq (QVersion project (version +:+ "/builds/" +:+ pretty build)))
             (eq_sym (Hreq (QBuild project version build)))).
  - exact (eq_trans (Hreq (QProject (project +:+ "/version_group/" +:+ family)))
             (eq_sym (Hreq (QVersionFamily project family)))).
  - exact (eq_trans (Hreq (QVersionFamily project (family +:+ "/builds")))
             (eq_sym (Hreq (QVersionFamilyBuilds project family)))).
  - rewrite getDownloadURL_run. unfold download_template. cbn [fst].
    unfold to_string, undefined_to_string, string_to_string.
    rewrite !append_assoc. reflexivity.
Qed.

End Properties.

(** ** The properties at work *)

Lemma latest_is_download_of_last_witness :
  ∃ url : string,
    getDownloadURL "paper" (Some "1.20") 17 (builds_fetched "1.20")
      = (inr url, builds_fetched "1.20")
    ∧ getLatestVersionDownloadURL paper_server "paper" loaded
      = (inr url, builds_fetched "1.20").
Proof.
  apply (latest_is_download_of_last paper_server "paper" loaded project_fetched
           (builds_fetched "1.20") paper_project paper_builds "1.20" (a_build 17) 17).
  - vm_compute. reflexivity.
  - reflexivity.
  - vm_compute. reflexivity.
  - reflexivity.
  - reflexivity.
Defined.

(** The scenario of the documentation, evaluated. *)
Example latest_of_paper :
  (getLatestVersionDownloadURL paper_server "paper" loaded).1 =
    inr "https://api.papermc.io/v2/projects/paper/versions/1.20/builds/17/downloads/paper-1.20-17.jar".
Proof. vm_compute. reflexivity. Qed.

(** C3 as stated fails: the project answers an empty version list, and
    the call returns a URL all the same, because the transport answers the
    request for the builds of version "undefined". *)
Lemma latest_with_no_versions_returns :
  (getProject no_versions_server "paper" loaded).1
    = inr (ProjectResponse.mk "paper" "Paper" [] [])
  ∧ (getLatestVersionDownloadURL no_versions_server "paper" loaded).1
    = inr "https://api.papermc.io/v2/projects/paper/versions/undefined/builds/17/downloads/paper-undefined-17.jar".
Proof. split; vm_compute; reflexivity. Qed.

Lemma latest_on_empty_lists_witness :
  getLatestVersionDownloadURL no_builds_server "paper" loaded
    = (inl (TypeError "Cannot read properties of undefined (reading 'build')"),
       builds_fetched "1.20")
  ∧ getLatestVersionDownloadURL no_versions_server "paper" loaded
    = (inr (download_template "https://api.papermc.io/v2" "paper" "undefined" "17"),
       builds_fetched "undefined").
Proof.
  split.
  - apply (proj1 (latest_on_empty_lists no_builds_server "paper" loaded
                    project_fetched paper_project ltac:(vm_compute; reflexivity))
             (BuildsResponse.mk "paper" "Paper" "1.20" [])).
    + vm_compute. reflexivity.
    + reflexivity.
  - apply (proj2 (latest_on_empty_lists no_versions_server "paper" loaded
                    project_fetched (ProjectResponse.mk "paper" "Paper" [] [])
                    ltac:(vm_compute; reflexivity))
             eq_refl
             (BuildsResponse.mk "paper" "Paper" "undefined" [a_build 10; a_build 17])
             (builds_fetched "undefined") (a_build 17)).
    + vm_compute. reflexivity.
    + reflexivity.
Defined.

(** The first call succeeds; the same call again meets a failing
    transport and throws its failure: the first answer is not served a
    second time. *)
Lemma transport_failure_propagates_witness :
  getProjects failing_later loaded
    = (inr (ProjectsResponse.mk ["paper"; "velocity"]), projects_fetched)
  ∧ getProjects failing_later projects_fetched =
      (inl (Rejected (BadStatus 500)),
       mkWorld paperAPIInstance
         (trace projects_fetched ++
          [Issued (request_in projects_fetched "/projects");
           Settled (request_in projects_fetched "/projects") (Some (BadStatus 500))])).
Proof.
  split; [reflexivity|].
  apply (transport_failure_propagates failing_later QProjects projects_fetched
           (BadStatus 500)).
  reflexivity.
Defined.

Lemma response_body_is_returned_witness :
  (getBuilds paper_server "paper" (Some "1.20") project_fetched).1 = inr paper_builds.
Proof.
  apply (response_body_is_returned paper_server (QBuilds "paper" "1.20")
           project_fetched (ok paper_builds)).
  vm_compute. reflexivity.
Defined.

(** A project id with a slash, evaluated: the request goes to the versions
    endpoint. *)
Example slash_in_project_id :
  requests (trace (getProject down "paper/versions/1.20" loaded).2)
    = [mkRequest GET "https://api.papermc.io/v2" "/projects/paper/versions/1.20"]
  ∧ (getDownloadURL "a/b" (Some "1.20") 17 loaded).1
    = inr "https://api.papermc.io/v2/projects/a/b/versions/1.20/builds/17/downloads/a/b-1.20-17.jar".
Proof. split; vm_compute; reflexivity. Qed.

(** [getDownloadURL], evaluated: the scenario's triple, and a triple with
    empty identifiers and a negative build number. *)
Example download_url_of_paper :
  getDownloadURL "paper" (Some "1.20") 17 loaded
    = (inr "https://api.papermc.io/v2/projects/paper/versions/1.20/builds/17/downloads/paper-1.20-17.jar",
       loaded)
  ∧ getDownloadURL "" (Some "") (-3) loaded
    = (inr "https://api.papermc.io/v2/projects//versions//builds/-3/downloads/---3.jar",
       loaded).
Proof. split; vm_compute; reflexivity. Qed.

(** With the transport down, [getLatestVersionDownloadURL] stops at the
    first request. *)
Example latest_when_down :
  getLatestVersionDownloadURL down "paper" loaded
    = (inl (Rejected (NetworkError "ECONNREFUSED")),
       mkWorld paperAPIInstance
         [Issued (mkRequest GET "https://api.papermc.io/v2" "/projects/paper");
          Settled (mkRequest GET "https://api.papermc.io/v2" "/projects/paper")
            (Some (NetworkError "ECONNREFUSED"))]).
Proof. vm_compute. reflexivity. Qed.

(** ** Paths and URLs as text *)

Lemma append_cons (c : ascii) (s t : string) : String c s +:+ t = String c (s +:+ t).
Proof. reflexivity. Qed.

Lemma append_nil_l (t : string) : "" +:+ t = t.
Proof. reflexivity. Qed.

Lemma append_nil_r (s : string) : s +:+ "" = s.
Proof. induction s as [|c s IH]; [reflexivity|]. rewrite append_cons, IH. reflexivity. Qed.

(** A segment without a slash ends where the next slash is: two paths that
    start with such segments and go on at a boundary have the same segment
    and the same rest. *)
Lemma segment_inj (s1 s2 t1 t2 : string) :
  slash_free s1 = true → slash_free s2 = true →
  at_boundary t1 = true → at_boundary t2 = true →
  s1 +:+ t1 = s2 +:+ t2 → s1 = s2 ∧ t1 = t2.
Proof.
  revert s2. induction s1 as [|c1 s1 IH]; intros [|c2 s2] Hs1 Hs2 Ht1 Ht2 Heq.
  - split; [reflexivity|exact Heq].
  - rewrite append_nil_l, append_cons in Heq. subst t1.
    cbn in Ht1, Hs2. rewrite Ht1 in Hs2. discriminate.
  - rewrite append_nil_l, append_cons in Heq. subst t2.
    cbn in Ht2, Hs1. rewrite Ht2 in Hs1. discriminate.
  - rewrite !append_cons in Heq. injection Heq as -> Heq.
    cbn in Hs1, Hs2. destruct (Ascii.eqb c2 "/"%char); [discriminate|].
    destruct (IH s2 Hs1 Hs2 Ht1 Ht2 Heq) as [-> ->]. done.
Qed.

Lemma segment_inj_end (s1 s2 t : string) :
  slash_free s1 = true → slash_free s2 = true → at_boundary t = true →
  s1 = s2 +:+ t → s1 = s2 ∧ t = "".
Proof.
  intros Hs1 Hs2 Ht Heq. rewrite <- (append_nil_r s1) in Heq.
  destruct (segment_inj s1 s2 "" t Hs1 Hs2 eq_refl Ht Heq) as [-> <-]. done.
Qed.

Lemma String_eq_inv (c1 c2 : ascii) (s1 s2 : string) :
  String c1 s1 = String c2 s2 → c1 = c2 ∧ s1 = s2.
Proof. intros H. injection H as -> ->. done. Qed.

(** Take two equal paths apart, segment by segment. *)
Ltac split_path :=
  repeat first
    [ discriminate
    | match goal with
      | H : String _ _ = String _ _ |- _ =>
          apply String_eq_inv in H; destruct H as [_ H] || destruct H as [? H]
      | H : ?s1 +:+ ?t1 = ?s2 +:+ ?t2,
        H1 : slash_free ?s1 = true, H2 : slash_free ?s2 = true |- _ =>
          destruct (segment_inj s1 s2 t1 t2 H1 H2 eq_refl eq_refl H) as [? ?]; clear H
      | H : ?s1 = ?s2 +:+ ?t2,
        H1 : slash_free ?s1 = true, H2 : slash_free ?s2 = true |- _ =>
          destruct (segment_inj_end s1 s2 t2 H1 H2 eq_refl H) as [? ?]; clear H
      | H : ?s2 +:+ ?t2 = ?s1,
        H1 : slash_free ?s1 = true, H2 : slash_free ?s2 = true |- _ =>
          symmetry in H;
          destruct (segment_inj_end s1 s2 t2 H1 H2 eq_refl H) as [? ?]; clear H
      | H : pretty ?a = pretty ?b |- _ => apply (inj pretty) in H
      end ].

(** Queries whose inputs have no slash ask for different paths. *)
Lemma endpoint_inj (q1 q2 : Query) :
  clean q1 = true → clean q2 = true → endpoint q1 = endpoint q2 → q1 = q2.
Proof.
  destruct q1, q2; cbn [clean endpoint]; intros H1 H2 H;
    try apply andb_prop in H1 as [? ?]; try apply andb_prop in H2 as [? ?];
    rewrite ?append_cons, ?append_nil_l in H; split_path; congruence.
Qed.

(** ** More on the client *)

Section Outcomes.

Variable net : Transport.

Lemma perform_requests (q : Query) (w : World) :
  requests (trace (perform net q w).2) = requests (trace w) ++ [request_in w (endpoint q)].
Proof.
  rewrite perform_world.
  destruct (get_world net (returns q) (endpoint q) w) as [o ->].
  cbn [trace]. rewrite requests_app. reflexivity.
Qed.

Lemma getBuilds_rejected (p : Project) (v : option Version) (w : World) (e : AxiosError) :
  net TBuilds (trace w) (request_in w (builds_path p v)) = inl e →
  getBuilds net p v w =
    (inl (Rejected e),
     mkWorld (api w)
       (trace w ++ [Issued (request_in w (builds_path p v));
                    Settled (request_in w (builds_path p v)) (Some e)])).
Proof.
  intros Hnet.
  change (getBuilds net p v)
    with (get net TBuilds (builds_path p v) ≫= λ r, mret (data r)).
  apply bind_throws, get_rejected, Hnet.
Qed.

Lemma getBuilds_fulfilled (p : Project) (v : option Version) (w : World)
    (r : AxiosResponse (data_of TBuilds)) :
  net TBuilds (trace w) (request_in w (builds_path p v)) = inr r →
  getBuilds net p v w =
    (inr (data r),
     mkWorld (api w)
       (trace w ++ [Issued (request_in w (builds_path p v));
                    Settled (request_in w (builds_path p v)) None])).
Proof.
  intros Hnet.
  change (getBuilds net p v)
    with (get net TBuilds (builds_path p v) ≫= λ r, mret (data r)).
  erewrite bind_returns by (apply get_fulfilled, Hnet). reflexivity.
Qed.

(** [getLatestVersionDownloadURL], answer by answer of the transport. *)
Lemma latest_unfold (p : Project) (w : World) :
  let q1 := request_in w ("/projects/" +:+ p) in
  getLatestVersionDownloadURL net p w =
    match net TProject (trace w) q1 with
    | inl e =>
        (inl (Rejected e), mkWorld (api w) (trace w ++ [Issued q1; Settled q1 (Some e)]))
    | inr r1 =>
        let v := last (ProjectResponse.versions (data r1)) in
        let q2 := request_in w (builds_path p v) in
        let tr1 := trace w ++ [Issued q1; Settled q1 None] in
        match net TBuilds tr1 q2 with
        | inl e =>
            (inl (Rejected e), mkWorld (api w) (tr1 ++ [Issued q2; Settled q2 (Some e)]))
        | inr r2 =>
            let w2 := mkWorld (api w) (tr1 ++ [Issued q2; Settled q2 None]) in
            match last (BuildsResponse.builds (data r2)) with
            | None =>
                (inl (TypeError "Cannot read properties of undefined (reading 'build')"), w2)
            | Some vb =>
                (inr (download_template (baseURL (api w)) p (to_string v)
                        (pretty (VersionBuild.build vb))), w2)
            end
        end
    end.
Proof.
  intros q1. unfold getLatestVersionDownloadURL.
  destruct (net TProject (trace w) q1) as [e|r1] eqn:Hnet1.
  - apply bind_throws. apply (perform_rejected net (QProject p) w e Hnet1).
  - rewrite (bind_returns _ _ _ _ _ (perform_fulfilled net (QProject p) w r1 Hnet1)).
    cbn zeta. rewrite index_last.
    set (v := last (ProjectResponse.versions (data r1))).
    set (w1 := mkWorld _ _).
    change (request_in w (builds_path p v)) with (request_in w1 (builds_path p v)).
    change (trace w ++ [Issued q1; Settled q1 None]) with (trace w1).
    destruct (net TBuilds (trace w1) (request_in w1 (builds_path p v)))
      as [e|r2] eqn:Hnet2.
    + rewrite (bind_throws _ _ _ _ _ (getBuilds_rejected p v w1 e Hnet2)).
      reflexivity.
    + rewrite (bind_returns _ _ _ _ _ (getBuilds_fulfilled p v w1 r2 Hnet2)).
      cbn zeta. rewrite index_last.
      destruct (last (BuildsResponse.builds (data r2))) as [vb|]; reflexivity.
Qed.


(** What one call sends: at most two requests, each a GET to the
    instance's base address, after the requests sent before. *)
Lemma after_requests (c : Call) (w : World) :
  ∃ rs : list Request,
    requests (trace (after net c w)) = requests (trace w) ++ rs
    ∧ (length rs ≤ 2)%nat
    ∧ Forall (λ r, method r = GET ∧ base r = baseURL (api w)) rs.
Proof.
  destruct c as [q|p v b|p]; cbn [after].
  - exists [request_in w (endpoint q)]. rewrite perform_requests.
    repeat split; [cbn; lia|]. repeat constructor.
  - exists []. rewrite getDownloadURL_run, app_nil_r.
    repeat split; [cbn; lia|constructor].
  - pose proof (latest_unfold p w) as Hl. cbn zeta in Hl. rewrite Hl. clear Hl.
    destruct (net TProject _ _) as [e|r1].
    { exists [request_in w ("/projects/" +:+ p)]. cbn [snd trace].
      rewrite requests_app. repeat split; [cbn; lia|]. repeat constructor. }
    destruct (net TBuilds _ _) as [e|r2].
    { eexists [_; _]. cbn [snd trace]. rewrite !requests_app, <- app_assoc.
      repeat split; [cbn; lia|]. repeat constructor. }
    eexists [_; _].
    destruct (last (BuildsResponse.builds (data r2))); cbn [snd trace];
      rewrite !requests_app, <- app_assoc;
      (repeat split; [cbn; lia|]); repeat constructor.
Qed.

(** X1. When the project request of [getLatestVersionDownloadURL]
    succeeds and the transport fails the builds request that follows, the
    call throws that very failure after those two requests: nothing is
    retried and no URL is made. *)
Theorem latest_propagates_builds_failure (p : Project) (w : World)
    (r1 : AxiosResponse (data_of TProject)) (e : AxiosError) :
  net TProject (trace w) (request_in w ("/projects/" +:+ p)) = inr r1 →
  net TBuilds
      (trace w ++ [Issued (request_in w ("/projects/" +:+ p));
                   Settled (request_in w ("/projects/" +:+ p)) None])
      (request_in w (builds_path p (last (ProjectResponse.versions (data r1)))))
    = inl e →
  getLatestVersionDownloadURL net p w =
    (inl (Rejected e),
     mkWorld (api w)
       (trace w ++
        [Issued (request_in w ("/projects/" +:+ p));
         Settled (request_in w ("/projects/" +:+ p)) None;
         Issued (request_in w (builds_path p (last (ProjectResponse.versions (data r1)))));
         Settled (request_in w (builds_path p (last (ProjectResponse.versions (data r1)))))
           (Some e)])).
Proof.
  intros H1 H2. pose proof (latest_unfold p w) as Hl. cbn zeta in Hl.
  rewrite Hl, H1, H2, <- app_assoc. reflexivity.
Qed.

(** X2. A URL returned by [getLatestVersionDownloadURL] is never made up:
    the transport answered both requests, the build list of the second
    answer has a last build, and the URL is the download template over the
    project asked for, the last version of the first answer and the number
    of that build.  Exactly those two requests were sent. *)
Theorem latest_success_inversion (p : Project) (w w' : World) (link : string) :
  getLatestVersionDownloadURL net p w = (inr link, w') →
  ∃ (r1 : AxiosResponse (data_of TProject)) (r2 : AxiosResponse (data_of TBuilds))
    (vb : VersionBuild.t),
    let q1 := request_in w ("/projects/" +:+ p) in
    let v := last (ProjectResponse.versions (data r1)) in
    let q2 := request_in w (builds_path p v) in
    net TProject (trace w) q1 = inr r1
    ∧ net TBuilds (trace w ++ [Issued q1; Settled q1 None]) q2 = inr r2
    ∧ last (BuildsResponse.builds (data r2)) = Some vb
    ∧ link = download_template (baseURL (api w)) p (to_string v)
               (pretty (VersionBuild.build vb))
    ∧ w' = mkWorld (api w)
             (trace w ++ [Issued q1; Settled q1 None; Issued q2; Settled q2 None]).
Proof.
  intros H. pose proof (latest_unfold p w) as Hl. cbn zeta in Hl.
  rewrite Hl in H. clear Hl.
  destruct (net TProject _ _) as [e|r1] eqn:H1; [discriminate|].
  destruct (net TBuilds _ _) as [e|r2] eqn:H2; [discriminate|].
  destruct (last (BuildsResponse.builds (data r2))) as [vb|] eqn:H3; [|discriminate].
  injection H as <- <-. exists r1, r2, vb. cbn zeta.
  rewrite <- app_assoc. done.
Qed.


(** X4. A query operation returns exactly when the transport answers its
    request, and then with the body of the answer; it throws exactly when
    the transport fails the request, and then the transport's failure.  It
    never throws anything of its own. *)
Theorem query_outcome (q : Query) (w : World) :
  match (perform net q w).1 with
  | inl err =>
      ∃ e : AxiosError,
        err = Rejected e
        ∧ net (returns q) (trace w) (request_in w (endpoint q)) = inl e
  | inr d =>
      ∃ r : AxiosResponse (data_of (returns q)),
        d = data r
        ∧ net (returns q) (trace w) (request_in w (endpoint q)) = inr r
  end.
Proof.
  destruct (net (returns q) (trace w) (request_in w (endpoint q))) as [e|r] eqn:Hnet.
  - rewrite (perform_rejected net q w e Hnet). exists e. done.
  - rewrite (perform_fulfilled net q w r Hnet). exists r. done.
Qed.

(** X5. Two different query operations, or one operation on different
    inputs, never send the same request when their text inputs have no
    slash in them. *)
Theorem clean_queries_send_distinct_requests (q1 q2 : Query) (w : World) :
  clean q1 = true → clean q2 = true → q1 ≠ q2 →
  requests (trace (perform net q1 w).2) ≠ requests (trace (perform net q2 w).2).
Proof.
  intros H1 H2 Hne Heq. rewrite !perform_requests in Heq.
  apply app_inv_head in Heq. injection Heq as Heq.
  exact (Hne (endpoint_inj q1 q2 H1 H2 Heq)).
Qed.

(** X6. After the module is loaded, whatever calls are made and whatever
    the transport answers, every request that has been sent is a GET to
    https://api.papermc.io/v2. *)
Theorem every_request_goes_to_the_api (cs : list Call) :
  Forall (λ r, method r = GET ∧ base r = "https://api.papermc.io/v2")
    (requests (trace (after_all net cs loaded))).
Proof.
  assert (Hinv : ∀ w,
            baseURL (api w) = "https://api.papermc.io/v2" →
            Forall (λ r, method r = GET ∧ base r = "https://api.papermc.io/v2")
              (requests (trace w)) →
            Forall (λ r, method r = GET ∧ base r = "https://api.papermc.io/v2")
              (requests (trace (after_all net cs w)))).
  { induction cs as [|c cs IH]; intros w Hb Hw; [exact Hw|].
    cbn. apply IH; [rewrite after_api; exact Hb|].
    destruct (after_requests c w) as (rs & -> & _ & Hrs).
    apply Forall_app. split; [exact Hw|]. rewrite <- Hb. exact Hrs. }
  apply Hinv; [reflexivity|constructor].
Qed.

End Outcomes.

(** ** The further properties at work *)

Lemma latest_propagates_builds_failure_witness :
  getLatestVersionDownloadURL builds_missing "paper" loaded =
    (inl (Rejected (BadStatus 404)),
     mkWorld paperAPIInstance
       [Issued (mkRequest GET "https://api.papermc.io/v2" "/projects/paper");
        Settled (mkRequest GET "https://api.papermc.io/v2" "/projects/paper") None;
        Issued (mkRequest GET "https://api.papermc.io/v2"
                  "/projects/paper/versions/1.20/builds");
        Settled (mkRequest GET "https://api.papermc.io/v2"
                   "/projects/paper/versions/1.20/builds") (Some (BadStatus 404))]).
Proof.
  apply (latest_propagates_builds_failure builds_missing "paper" loaded
           (ok paper_project) (BadStatus 404)); reflexivity.
Defined.

Lemma latest_success_inversion_witness :
  ∃ (r1 : AxiosResponse (data_of TProject)) (r2 : AxiosResponse (data_of TBuilds))
    (vb : VersionBuild.t),
    let q1 := request_in loaded ("/projects/" +:+ "paper") in
    let v := last (ProjectResponse.versions (data r1)) in
    let q2 := request_in loaded (builds_path "paper" v) in
    paper_server TProject (trace loaded) q1 = inr r1
    ∧ paper_server TBuilds (trace loaded ++ [Issued q1; Settled q1 None]) q2 = inr r2
    ∧ last (BuildsResponse.builds (data r2)) = Some vb
    ∧ "https://api.papermc.io/v2/projects/paper/versions/1.20/builds/17/downloads/paper-1.20-17.jar"
      = download_template (baseURL (api loaded)) "paper" (to_string v)
          (pretty (VersionBuild.build vb))
    ∧ builds_fetched "1.20"
      = mkWorld (api loaded)
          (trace loaded ++ [Issued q1; Settled q1 None; Issued q2; Settled q2 None]).
Proof.
  apply (latest_success_inversion paper_server "paper" loaded (builds_fetched "1.20")).
  vm_compute. reflexivity.
Defined.


Lemma clean_queries_send_distinct_requests_witness :
  requests (trace (perform down (QVersion "paper" "1.20") loaded).2)
  ≠ requests (trace (perform down (QBuilds "paper" "1.20") loaded).2).
Proof.
  apply (clean_queries_send_distinct_requests down (QVersion "paper" "1.20")
           (QBuilds "paper" "1.20") loaded); [reflexivity|reflexivity|discriminate].
Defined.
